(** * The Elasticsearch v7 bulk-processor adapter of cadence

    A shallow embedding of [common/elasticsearch/client_v7_bulk.go]: the
    translation of generic bulk requests into the requests of the olivere
    client ([Add]), the conversion of the client's errors and bulk responses
    into the generic model, and the two hooks [RunBulkProcessor] registers
    with the client's bulk processor.

    Go values are modelled as follows.
    - [int], [int64]: [Z] (the adapter only copies them, it does no
      arithmetic).
    - a pointer or an interface value that may be nil: [option];
      dereferencing a nil pointer is [Go.Panic] in the [Go.result] monad.
    - a slice: [Go.slice], nil or a backing list, so that a nil slice and an
      empty one are told apart.
    - a map with string keys: [Go.map], nil or a [gmap string].
    - a method with a pointer receiver that updates the receiver: a function
      that returns the updated value.
    - the effects of the caller's hooks: functions on a state [W] of the
      caller's. *)

From Stdlib Require Import ZArith.
From stdpp Require Import gmap strings list fin_maps.

Local Open Scope Z_scope.

(* ===================================================================== *)
(** ** Go values *)
(* ===================================================================== *)

Module Go.

(** The outcome of an evaluation that may panic. *)
Inductive result (A : Type) : Type :=
| Ok (a : A)
| Panic.
Arguments Ok {A} a.
Arguments Panic {A}.

Definition bind {A B} (r : result A) (k : A → result B) : result B :=
  match r with
  | Ok a => k a
  | Panic => Panic
  end.

(** A slice: [None] is the nil slice, [Some l] a slice over the elements
    [l] ([Some []] is empty and not nil). *)
Abbreviation slice A := (option (list A)) (only parsing).

Definition elems {A} (s : slice A) : list A := default [] s.

Definition len {A} (s : slice A) : nat := length (elems s).

(** [append(s, x)]: the result is never nil. *)
Definition append {A} (s : slice A) (x : A) : slice A :=
  Some (elems s ++ [x]).

(** A map: [None] is the nil map. *)
Abbreviation map A := (option (gmap string A)) (only parsing).

(** The dynamic value of an [interface{}] that is only passed on. *)
Definition any : Type := option string.

End Go.

Notation "x ←! r ; k" := (Go.bind r (λ x, k))
  (at level 20, r at level 100, k at level 200, right associativity,
   format "x  ←!  r ;  '/' k").

(** Method chaining: [recv.M(a)] is written [recv ▷ M a]. *)
Notation "r ▷ f" := (f r) (at level 45, left associativity, only parsing).

(* ===================================================================== *)
(** ** The client library (github.com/olivere/elastic/v7) *)
(* ===================================================================== *)

(** Only what the adapter uses of the library is modelled: the request
    builders and their setters, the bulk response, the error type, and the
    bulk processor with its queue and its two hooks. *)
Module elastic.

Module BulkDeleteRequest.
Record t := mk {
  index : string;
  id : string;
  versionType : string;
  version : Z;
}.
Definition Index (s : string) (r : t) : t :=
  mk s r.(id) r.(versionType) r.(version).
Definition Id (s : string) (r : t) : t :=
  mk r.(index) s r.(versionType) r.(version).
Definition VersionType (s : string) (r : t) : t :=
  mk r.(index) r.(id) s r.(version).
Definition Version (n : Z) (r : t) : t :=
  mk r.(index) r.(id) r.(versionType) n.
End BulkDeleteRequest.

Module BulkIndexRequest.
Record t := mk {
  index : string;
  id : string;
  opType : string;
  versionType : string;
  version : option Z;   (* *int64, nil until Version is called *)
  doc : Go.any;
}.
Definition OpType (s : string) (r : t) : t :=
  mk r.(index) r.(id) s r.(versionType) r.(version) r.(doc).
Definition Index (s : string) (r : t) : t :=
  mk s r.(id) r.(opType) r.(versionType) r.(version) r.(doc).
Definition Id (s : string) (r : t) : t :=
  mk r.(index) s r.(opType) r.(versionType) r.(version) r.(doc).
Definition VersionType (s : string) (r : t) : t :=
  mk r.(index) r.(id) r.(opType) s r.(version) r.(doc).
Definition Version (n : Z) (r : t) : t :=
  mk r.(index) r.(id) r.(opType) r.(versionType) (Some n) r.(doc).
Definition Doc (d : Go.any) (r : t) : t :=
  mk r.(index) r.(id) r.(opType) r.(versionType) r.(version) d.
End BulkIndexRequest.

(** [NewBulkDeleteRequest()] is [&BulkDeleteRequest{}]. *)
Definition NewBulkDeleteRequest : BulkDeleteRequest.t :=
  BulkDeleteRequest.mk "" "" "" 0.

(** [NewBulkIndexRequest()] is [&BulkIndexRequest{opType: "index"}]. *)
Definition NewBulkIndexRequest : BulkIndexRequest.t :=
  BulkIndexRequest.mk "" "" "index" "" None None.

(** The dynamic values of the interface [BulkableRequest] that the adapter
    builds. *)
Inductive BulkableRequestValue : Type :=
| DeleteRequest (r : BulkDeleteRequest.t)
| IndexRequest (r : BulkIndexRequest.t).

(** A variable of type [BulkableRequest]; [None] is the nil interface. *)
Definition BulkableRequest : Type := option BulkableRequestValue.

(** [elastic.Error], the error of a response with a failure status. *)
Module Error.
Record t := mk {
  Status : Z;
  Details : option string;   (* *ErrorDetails, never read by the adapter *)
}.
End Error.

Module BulkResponseItem.
Record t := mk {
  Index : string;
  Type_ : string;
  Id : string;
  Version : Z;
  Result : string;
  Shards : option string;      (* *ShardsInfo, never read by the adapter *)
  SeqNo : Z;
  PrimaryTerm : Z;
  Status : Z;
  ForcedRefresh : bool;
  Error : option string;       (* *ErrorDetails, never read by the adapter *)
  GetResult : option string;   (* *GetResult, never read by the adapter *)
}.
End BulkResponseItem.

Module BulkResponse.
Record t := mk {
  Took : Z;
  Errors : bool;
  Items : Go.slice (Go.map (option BulkResponseItem.t));
}.
End BulkResponse.

End elastic.

(** The dynamic values of Go's [error] interface: a [*elastic.Error] or an
    error of any other type, kept by its message.  A [*elastic.Error] held
    by an [error] points to an [Error] value, the library builds it as
    [&Error{...}].  A variable of type [error] is an [option error_value],
    [None] being nil. *)
Inductive error_value : Type :=
| ElasticError (e : elastic.Error.t)
| OtherError (msg : string).

Definition error : Type := option error_value.

(** [elastic.BulkProcessor], the native batching engine. *)
Module BulkProcessor.

(** The hooks of the library's bulk processor: [BulkBeforeFunc] and
    [BulkAfterFunc].  A hook runs on the caller's state [W] and may panic. *)
Definition BulkBeforeFunc (W : Type) : Type :=
  Z → Go.slice elastic.BulkableRequest → W → Go.result W.

Definition BulkAfterFunc (W : Type) : Type :=
  Z → Go.slice elastic.BulkableRequest → option elastic.BulkResponse.t →
  error → W → Go.result W.

(** The processor: its configuration, its hooks (nil when not registered)
    and the requests handed to it and not yet committed. *)
Record t (W : Type) := mk {
  name : string;
  numWorkers : Z;
  bulkActions : Z;
  bulkSize : Z;
  flushInterval : Z;
  backoff : Go.any;
  beforeFn : option (BulkBeforeFunc W);
  afterFn : option (BulkAfterFunc W);
  requestsC : list elastic.BulkableRequest;
}.
Arguments mk {W}.
Arguments name {W}.
Arguments numWorkers {W}.
Arguments bulkActions {W}.
Arguments bulkSize {W}.
Arguments flushInterval {W}.
Arguments backoff {W}.
Arguments beforeFn {W}.
Arguments afterFn {W}.
Arguments requestsC {W}.

(** [p.Add(request)] sends [request] on the processor's channel, whatever
    the request. *)
Definition Add {W} (request : elastic.BulkableRequest) (p : t W) : t W :=
  mk p.(name) p.(numWorkers) p.(bulkActions) p.(bulkSize) p.(flushInterval)
    p.(backoff) p.(beforeFn) p.(afterFn) (p.(requestsC) ++ [request]).

(** Modelled from the spec: one flush cycle of the native engine, which is
    not part of this repository.  With the execution id [executionId] the
    engine hands the queued batch to the before-hook, commits it (the
    backend's answer is [response] and [err]), hands the same batch with the
    answer to the after-hook, and starts an empty batch. *)
Definition commit {W} (executionId : Z)
    (response : option elastic.BulkResponse.t) (err : error)
    (p : t W) (w : W) : Go.result (t W * W) :=
  let reqs : Go.slice elastic.BulkableRequest := Some p.(requestsC) in
  w ←! match p.(beforeFn) with
       | Some beforeFn => beforeFn executionId reqs w
       | None => Go.Ok w
       end;
  w ←! match p.(afterFn) with
       | Some afterFn => afterFn executionId reqs response err w
       | None => Go.Ok w
       end;
  Go.Ok (mk p.(name) p.(numWorkers) p.(bulkActions) p.(bulkSize)
           p.(flushInterval) p.(backoff) p.(beforeFn) p.(afterFn) [], w).

End BulkProcessor.

(* ===================================================================== *)
(** ** The generic model *)
(* ===================================================================== *)

(** Modelled from the spec: the declaration of [GenericBulkableAddRequest]
    is outside this file's source; its fields are those of the spec's
    BulkableOperation, under the names [Add] reads them by.
    [RequestType] has the integer type [GenericBulkableRequestType]. *)
Module GenericBulkableAddRequest.
Record t := mk {
  RequestType : Z;
  Index : string;
  ID : string;
  VersionType : string;
  Version : Z;
  Doc : Go.any;
}.
End GenericBulkableAddRequest.

(** Modelled from the spec: [GenericBulkableRequest] is declared outside
    this file's source; it is an interface that every native request
    satisfies, so its dynamic values are those of [elastic.BulkableRequest]. *)
Definition GenericBulkableRequest : Type := elastic.BulkableRequest.

(** Modelled from the spec: [GenericBulkResponseItem] is declared outside
    this file's source; its fields are those of the spec's ItemResult, under
    the names [fromV7ToGenericBulkResponseItem] fills them by. *)
Module GenericBulkResponseItem.
Record t := mk {
  Index : string;
  Type_ : string;
  ID : string;
  Version : Z;
  Result : string;
  SeqNo : Z;
  PrimaryTerm : Z;
  Status : Z;
  ForcedRefresh : bool;
}.
End GenericBulkResponseItem.

(** Modelled from the spec: [GenericBulkResponse] is declared outside this
    file's source; its fields are those of the spec's BulkResponse. *)
Module GenericBulkResponse.
Record t := mk {
  Took : Z;
  Errors : bool;
  Items : Go.slice (Go.map (option GenericBulkResponseItem.t));
}.
(** [GenericBulkResponse{}] *)
Definition zero : t := mk 0 false None.
End GenericBulkResponse.

(** Modelled from the spec: [GenericError] is declared outside this file's
    source; its fields are those of the spec's NormalizedError. *)
Module GenericError.
Record t := mk {
  Status : Z;
  Details : error;
}.
End GenericError.

(** Modelled from the spec: [BulkProcessorParameters] is declared outside
    this file's source; its fields are those of the spec's
    ProcessorParameters.  The caller's hooks act on the caller's state [W]. *)
Module BulkProcessorParameters.
Record t (W : Type) := mk {
  Name : string;
  NumOfWorkers : Z;
  BulkActions : Z;
  BulkSize : Z;
  FlushInterval : Z;
  Backoff : Go.any;
  BeforeFunc : Z → Go.slice GenericBulkableRequest → W → W;
  AfterFunc : Z → Go.slice GenericBulkableRequest →
              option GenericBulkResponse.t → option GenericError.t → W → W;
}.
Arguments mk {W}.
Arguments Name {W}.
Arguments NumOfWorkers {W}.
Arguments BulkActions {W}.
Arguments BulkSize {W}.
Arguments FlushInterval {W}.
Arguments Backoff {W}.
Arguments BeforeFunc {W}.
Arguments AfterFunc {W}.
End BulkProcessorParameters.

(** [v7BulkProcessor] *)
Record v7BulkProcessor (W : Type) := mk_v7BulkProcessor {
  processor : BulkProcessor.t W;
}.
Arguments mk_v7BulkProcessor {W}.
Arguments processor {W}.

(* ===================================================================== *)
(** ** Sample values *)
(* ===================================================================== *)

(** A processor with no hooks and an empty queue, for a caller without
    state. *)
Definition idle_processor : v7BulkProcessor unit :=
  mk_v7BulkProcessor (BulkProcessor.mk "visibility" 1 1000 0 0 None None None []).

(** Parameters whose hooks log the execution id and the number of
    operations they are called with. *)
Definition logging_parameters : BulkProcessorParameters.t (list (Z * nat)) :=
  BulkProcessorParameters.mk "visibility" 1 1000 0 0 None
    (λ executionId ops w, w ++ [(executionId, Go.len ops)])
    (λ executionId ops _ _ w, w ++ [(executionId, Go.len ops)]).

(** A successful item of an index operation. *)
Definition indexed_item : elastic.BulkResponseItem.t :=
  elastic.BulkResponseItem.mk "cadence-visibility" "_doc" "doc1" 1 "created"
    None 0 1 201 false None None.

(* ===================================================================== *)
(** ** The adapter (client_v7_bulk.go) *)
(* ===================================================================== *)

Section Adapter.

(** The request types and the unknown status code are constants declared
    outside this file's source: they are parameters of the development.
    Go rejects a switch that lists one integer constant twice, so the three
    request types differ. *)
Variables BulkableDeleteRequest BulkableIndexRequest BulkableCreateRequest : Z.
Variable unknownStatusCode : Z.
Hypothesis switch_cases_distinct :
  NoDup [BulkableDeleteRequest; BulkableIndexRequest; BulkableCreateRequest].

(** The state of the caller, on which the caller's hooks act. *)
Context {W : Type}.

(** The switch of [Add]: the value of [req] that [Add] hands to the
    processor.  [req] is declared without a value (the nil interface) and
    the switch has no default case. *)
Definition Add_req (request : GenericBulkableAddRequest.t)
  : elastic.BulkableRequest :=
  let req : elastic.BulkableRequest := None in
  if decide (request.(GenericBulkableAddRequest.RequestType)
             = BulkableDeleteRequest) then
    Some (elastic.DeleteRequest
      (elastic.NewBulkDeleteRequest
        ▷ elastic.BulkDeleteRequest.Index
            request.(GenericBulkableAddRequest.Index)
        ▷ elastic.BulkDeleteRequest.Id
            request.(GenericBulkableAddRequest.ID)
        ▷ elastic.BulkDeleteRequest.VersionType
            request.(GenericBulkableAddRequest.VersionType)
        ▷ elastic.BulkDeleteRequest.Version
            request.(GenericBulkableAddRequest.Version)))
  else if decide (request.(GenericBulkableAddRequest.RequestType)
                  = BulkableIndexRequest) then
    Some (elastic.IndexRequest
      (elastic.NewBulkIndexRequest
        ▷ elastic.BulkIndexRequest.Index
            request.(GenericBulkableAddRequest.Index)
        ▷ elastic.BulkIndexRequest.Id
            request.(GenericBulkableAddRequest.ID)
        ▷ elastic.BulkIndexRequest.VersionType
            request.(GenericBulkableAddRequest.VersionType)
        ▷ elastic.BulkIndexRequest.Version
            request.(GenericBulkableAddRequest.Version)
        ▷ elastic.BulkIndexRequest.Doc
            request.(GenericBulkableAddRequest.Doc)))
  else if decide (request.(GenericBulkableAddRequest.RequestType)
                  = BulkableCreateRequest) then
    Some (elastic.IndexRequest
      (elastic.NewBulkIndexRequest
        ▷ elastic.BulkIndexRequest.OpType "create"
        ▷ elastic.BulkIndexRequest.Index
            request.(GenericBulkableAddRequest.Index)
        ▷ elastic.BulkIndexRequest.Id
            request.(GenericBulkableAddRequest.ID)
        ▷ elastic.BulkIndexRequest.VersionType "internal"
        ▷ elastic.BulkIndexRequest.Doc
            request.(GenericBulkableAddRequest.Doc)))
  else req.

(** [func (v *v7BulkProcessor) Add(request *GenericBulkableAddRequest)].
    It returns nothing; its effect is on the processor [v] points to. *)
Definition Add (request : GenericBulkableAddRequest.t)
    (v : v7BulkProcessor W) : v7BulkProcessor W :=
  let req := Add_req request in
  mk_v7BulkProcessor (BulkProcessor.Add req v.(processor)).

(** [convertV7ErrorToGenericError] *)
Definition convertV7ErrorToGenericError (err : error)
  : option GenericError.t :=
  match err with
  | None => None
  | Some e =>
      let status := unknownStatusCode in
      let status :=
        match e with
        | ElasticError e => e.(elastic.Error.Status)
        | _ => status
        end in
      Some (GenericError.mk status err)
  end.

(** [fromV7ToGenericBulkResponseItem]: every field is read through the
    pointer [v], so a nil [v] panics. *)
Definition fromV7ToGenericBulkResponseItem
    (v : option elastic.BulkResponseItem.t)
  : Go.result (option GenericBulkResponseItem.t) :=
  match v with
  | None => Go.Panic
  | Some v =>
      Go.Ok (Some (GenericBulkResponseItem.mk
        v.(elastic.BulkResponseItem.Index)
        v.(elastic.BulkResponseItem.Type_)
        v.(elastic.BulkResponseItem.Id)
        v.(elastic.BulkResponseItem.Version)
        v.(elastic.BulkResponseItem.Result)
        v.(elastic.BulkResponseItem.SeqNo)
        v.(elastic.BulkResponseItem.PrimaryTerm)
        v.(elastic.BulkResponseItem.Status)
        v.(elastic.BulkResponseItem.ForcedRefresh)))
  end.

(** [fromV7ToGenericBulkResponseItemMap]: the loop over the entries of [m]
    is a fold that stores one converted item per key. *)
Definition fromV7ToGenericBulkResponseItemMap
    (m : Go.map (option elastic.BulkResponseItem.t))
  : Go.result (Go.map (option GenericBulkResponseItem.t)) :=
  match m with
  | None => Go.Ok None
  | Some m =>
      gm ←! map_fold
              (λ k v (acc : Go.result (gmap string _)),
                 gm ←! acc;
                 gv ←! fromV7ToGenericBulkResponseItem v;
                 Go.Ok (<[k := gv]> gm))
              (Go.Ok ∅) m;
      Go.Ok (Some gm)
  end.

(** [fromV7ToGenericBulkResponseItemMaps]: [gitems] starts as the nil
    slice and grows by one element per item map. *)
Definition fromV7ToGenericBulkResponseItemMaps
    (items : Go.slice (Go.map (option elastic.BulkResponseItem.t)))
  : Go.result (Go.slice (Go.map (option GenericBulkResponseItem.t))) :=
  fold_left
    (λ acc it,
       gitems ←! acc;
       git ←! fromV7ToGenericBulkResponseItemMap it;
       Go.Ok (Go.append gitems git))
    (Go.elems items) (Go.Ok None).

(** [fromV7toGenericBulkResponse] *)
Definition fromV7toGenericBulkResponse
    (response : option elastic.BulkResponse.t)
  : Go.result (option GenericBulkResponse.t) :=
  match response with
  | None => Go.Ok (Some GenericBulkResponse.zero)
  | Some response =>
      items ←! fromV7ToGenericBulkResponseItemMaps
                 response.(elastic.BulkResponse.Items);
      Go.Ok (Some (GenericBulkResponse.mk
        response.(elastic.BulkResponse.Took)
        response.(elastic.BulkResponse.Errors)
        items))
  end.

(** [fromV7ToGenericBulkableRequests]: [v7Reqs] starts as the nil slice and
    grows by one element per request. *)
Definition fromV7ToGenericBulkableRequests
    (requests : Go.slice elastic.BulkableRequest)
  : Go.slice GenericBulkableRequest :=
  fold_left (λ v7Reqs req, Go.append v7Reqs req) (Go.elems requests) None.

(** The two closures of [RunBulkProcessor].  The arguments of the call of
    the caller's hook are evaluated before the call, so a conversion that
    panics leaves the hook uncalled. *)
Definition beforeFunc (parameters : BulkProcessorParameters.t W)
  : BulkProcessor.BulkBeforeFunc W :=
  λ executionId requests w,
    Go.Ok (parameters.(BulkProcessorParameters.BeforeFunc)
             executionId (fromV7ToGenericBulkableRequests requests) w).

Definition afterFunc (parameters : BulkProcessorParameters.t W)
  : BulkProcessor.BulkAfterFunc W :=
  λ executionId requests response err w,
    let gerr := convertV7ErrorToGenericError err in
    let greqs := fromV7ToGenericBulkableRequests requests in
    gresp ←! fromV7toGenericBulkResponse response;
    Go.Ok (parameters.(BulkProcessorParameters.AfterFunc)
             executionId greqs gresp gerr w).

(** [RunBulkProcessor]: the processor is built with the parameters and the
    two closures and started; [startErr] is the error of [Do(ctx)], decided
    by the library and the backend. *)
Definition RunBulkProcessor (startErr : error)
    (parameters : BulkProcessorParameters.t W)
  : option (v7BulkProcessor W) * error :=
  let processor :=
    BulkProcessor.mk
      parameters.(BulkProcessorParameters.Name)
      parameters.(BulkProcessorParameters.NumOfWorkers)
      parameters.(BulkProcessorParameters.BulkActions)
      parameters.(BulkProcessorParameters.BulkSize)
      parameters.(BulkProcessorParameters.FlushInterval)
      parameters.(BulkProcessorParameters.Backoff)
      (Some (beforeFunc parameters))
      (Some (afterFunc parameters))
      [] in
  match startErr with
  | Some _ => (None, startErr)
  | None => (Some (mk_v7BulkProcessor processor), None)
  end.

(* ===================================================================== *)
(** ** Notions the statements use *)
(* ===================================================================== *)

(** The requests the processor of [v] holds. *)
Definition queued (v : v7BulkProcessor W) : list elastic.BulkableRequest :=
  v.(processor).(BulkProcessor.requestsC).

(** A processor whose two hooks are the closures [RunBulkProcessor] builds
    from [parameters]. *)
Definition bridged (parameters : BulkProcessorParameters.t W)
    (p : BulkProcessor.t W) : Prop :=
  p.(BulkProcessor.beforeFn) = Some (beforeFunc parameters)
  ∧ p.(BulkProcessor.afterFn) = Some (afterFunc parameters).

(** The generic item a native item converts to. *)
Definition item_of (v : elastic.BulkResponseItem.t)
  : GenericBulkResponseItem.t :=
  GenericBulkResponseItem.mk
    v.(elastic.BulkResponseItem.Index)
    v.(elastic.BulkResponseItem.Type_)
    v.(elastic.BulkResponseItem.Id)
    v.(elastic.BulkResponseItem.Version)
    v.(elastic.BulkResponseItem.Result)
    v.(elastic.BulkResponseItem.SeqNo)
    v.(elastic.BulkResponseItem.PrimaryTerm)
    v.(elastic.BulkResponseItem.Status)
    v.(elastic.BulkResponseItem.ForcedRefresh).

(** An item map none of whose values is a nil pointer (the nil map is one). *)
Definition no_nil_item (m : Go.map (option elastic.BulkResponseItem.t))
  : Prop :=
  match m with
  | None => True
  | Some m => map_Forall (λ _ v, is_Some v) m
  end.

#[export] Instance no_nil_item_dec m : Decision (no_nil_item m).
Proof. destruct m; simpl; apply _. Defined.

(** The generic item map an item map without nil pointers converts to. *)
Definition item_map_of (m : Go.map (option elastic.BulkResponseItem.t))
  : Go.map (option GenericBulkResponseItem.t) :=
  match m with
  | None => None
  | Some m => Some (fmap (M := option) item_of <$> m)
  end.

(** The nine fields of the generic item equal those of the native item. *)
Definition item_fields_agree (v : elastic.BulkResponseItem.t)
    (g : GenericBulkResponseItem.t) : Prop :=
  g.(GenericBulkResponseItem.Index) = v.(elastic.BulkResponseItem.Index)
  ∧ g.(GenericBulkResponseItem.Type_) = v.(elastic.BulkResponseItem.Type_)
  ∧ g.(GenericBulkResponseItem.ID) = v.(elastic.BulkResponseItem.Id)
  ∧ g.(GenericBulkResponseItem.Version) = v.(elastic.BulkResponseItem.Version)
  ∧ g.(GenericBulkResponseItem.Result) = v.(elastic.BulkResponseItem.Result)
  ∧ g.(GenericBulkResponseItem.SeqNo) = v.(elastic.BulkResponseItem.SeqNo)
  ∧ g.(GenericBulkResponseItem.PrimaryTerm)
    = v.(elastic.BulkResponseItem.PrimaryTerm)
  ∧ g.(GenericBulkResponseItem.Status) = v.(elastic.BulkResponseItem.Status)
  ∧ g.(GenericBulkResponseItem.ForcedRefresh)
    = v.(elastic.BulkResponseItem.ForcedRefresh).

(** A generic item map has the keys of the native one, and under each key
    an item whose fields agree with the native item; a nil map goes with a
    nil map. *)
Definition item_map_agrees (m : Go.map (option elastic.BulkResponseItem.t))
    (gm : Go.map (option GenericBulkResponseItem.t)) : Prop :=
  match m, gm with
  | None, None => True
  | Some m, Some gm =>
      ∀ k : string,
        match m !! k, gm !! k with
        | None, None => True
        | Some (Some v), Some (Some g) => item_fields_agree v g
        | _, _ => False
        end
  | _, _ => False
  end.

(** Modelled from the spec: the conversion back from the generic item to a
    native one, which the repository does not have; the fields with no slot
    in the generic item are nil. *)
Definition toV7BulkResponseItem (g : GenericBulkResponseItem.t)
  : elastic.BulkResponseItem.t :=
  elastic.BulkResponseItem.mk
    g.(GenericBulkResponseItem.Index)
    g.(GenericBulkResponseItem.Type_)
    g.(GenericBulkResponseItem.ID)
    g.(GenericBulkResponseItem.Version)
    g.(GenericBulkResponseItem.Result)
    None
    g.(GenericBulkResponseItem.SeqNo)
    g.(GenericBulkResponseItem.PrimaryTerm)
    g.(GenericBulkResponseItem.Status)
    g.(GenericBulkResponseItem.ForcedRefresh)
    None
    None.

(** Two native items agree on the nine fields the generic item has. *)
Definition same_listed_fields (v v' : elastic.BulkResponseItem.t) : Prop :=
  v'.(elastic.BulkResponseItem.Index) = v.(elastic.BulkResponseItem.Index)
  ∧ v'.(elastic.BulkResponseItem.Type_) = v.(elastic.BulkResponseItem.Type_)
  ∧ v'.(elastic.BulkResponseItem.Id) = v.(elastic.BulkResponseItem.Id)
  ∧ v'.(elastic.BulkResponseItem.Version)
    = v.(elastic.BulkResponseItem.Version)
  ∧ v'.(elastic.BulkResponseItem.Result) = v.(elastic.BulkResponseItem.Result)
  ∧ v'.(elastic.BulkResponseItem.SeqNo) = v.(elastic.BulkResponseItem.SeqNo)
  ∧ v'.(elastic.BulkResponseItem.PrimaryTerm)
    = v.(elastic.BulkResponseItem.PrimaryTerm)
  ∧ v'.(elastic.BulkResponseItem.Status) = v.(elastic.BulkResponseItem.Status)
  ∧ v'.(elastic.BulkResponseItem.ForcedRefresh)
    = v.(elastic.BulkResponseItem.ForcedRefresh).

(** [Add] called once per request of [requests], in their order. *)
Definition Add_all (requests : list GenericBulkableAddRequest.t)
    (v : v7BulkProcessor W) : v7BulkProcessor W :=
  fold_left (λ v request, Add request v) requests v.

(** The processors a caller gets hold of: the one [RunBulkProcessor]
    returns, and the ones it becomes as requests are added and batches
    committed. *)
Inductive reachable (parameters : BulkProcessorParameters.t W)
  : v7BulkProcessor W → Prop :=
| reachable_Run (startErr : error) (v : v7BulkProcessor W) :
    (RunBulkProcessor startErr parameters).1 = Some v →
    reachable parameters v
| reachable_Add (request : GenericBulkableAddRequest.t)
    (v : v7BulkProcessor W) :
    reachable parameters v →
    reachable parameters (Add request v)
| reachable_commit (executionId : Z)
    (response : option elastic.BulkResponse.t) (err : error)
    (v : v7BulkProcessor W) (p' : BulkProcessor.t W) (w w' : W) :
    reachable parameters v →
    BulkProcessor.commit executionId response err v.(processor) w
      = Go.Ok (p', w') →
    reachable parameters (mk_v7BulkProcessor p').

(** The loop of [fromV7ToGenericBulkResponseItemMap] when the entries of the
    map are visited in the order of [entries]; Go leaves the order of a
    range over a map open. *)
Definition range_item_map
    (entries : list (string * option elastic.BulkResponseItem.t))
  : Go.result (gmap string (option GenericBulkResponseItem.t)) :=
  fold_left
    (λ (acc : Go.result (gmap string (option GenericBulkResponseItem.t)))
       '(k, v),
       gm ←! acc;
       gv ←! fromV7ToGenericBulkResponseItem v;
       Go.Ok (<[k := gv]> gm))
    entries (Go.Ok ∅).

(* ===================================================================== *)
(** ** Adding requests *)
(* ===================================================================== *)

(** [Add] hands exactly one value to the processor, the outcome of the
    switch, and leaves the rest of the processor as it was. *)
Lemma Add_queued (request : GenericBulkableAddRequest.t)
    (v : v7BulkProcessor W) :
  queued (Add request v) = queued v ++ [Add_req request].
Proof. reflexivity. Qed.

Lemma Add_hooks (request : GenericBulkableAddRequest.t)
    (v : v7BulkProcessor W) :
  (Add request v).(processor).(BulkProcessor.beforeFn)
    = v.(processor).(BulkProcessor.beforeFn)
  ∧ (Add request v).(processor).(BulkProcessor.afterFn)
    = v.(processor).(BulkProcessor.afterFn).
Proof. split; reflexivity. Qed.

(** The three cases of the switch and the case it lacks. *)
Lemma Add_req_delete (request : GenericBulkableAddRequest.t) :
  request.(GenericBulkableAddRequest.RequestType) = BulkableDeleteRequest →
  Add_req request
  = Some (elastic.DeleteRequest (elastic.BulkDeleteRequest.mk
      request.(GenericBulkableAddRequest.Index)
      request.(GenericBulkableAddRequest.ID)
      request.(GenericBulkableAddRequest.VersionType)
      request.(GenericBulkableAddRequest.Version))).
Proof. intros Hd. unfold Add_req. case_decide; [reflexivity | contradiction]. Qed.

Lemma Add_req_index (request : GenericBulkableAddRequest.t) :
  request.(GenericBulkableAddRequest.RequestType) = BulkableIndexRequest →
  Add_req request
  = Some (elastic.IndexRequest (elastic.BulkIndexRequest.mk
      request.(GenericBulkableAddRequest.Index)
      request.(GenericBulkableAddRequest.ID)
      "index"
      request.(GenericBulkableAddRequest.VersionType)
      (Some request.(GenericBulkableAddRequest.Version))
      request.(GenericBulkableAddRequest.Doc))).
Proof.
  intros Hi. unfold Add_req.
  pose proof switch_cases_distinct as Hnd.
  apply NoDup_cons in Hnd as [Hd _].
  case_decide as E.
  - exfalso. apply Hd. rewrite <- E, Hi. set_solver.
  - case_decide; [reflexivity | contradiction].
Qed.

Lemma Add_req_create (request : GenericBulkableAddRequest.t) :
  request.(GenericBulkableAddRequest.RequestType) = BulkableCreateRequest →
  Add_req request
  = Some (elastic.IndexRequest (elastic.BulkIndexRequest.mk
      request.(GenericBulkableAddRequest.Index)
      request.(GenericBulkableAddRequest.ID)
      "create"
      "internal"
      None
      request.(GenericBulkableAddRequest.Doc))).
Proof.
  intros Hc. unfold Add_req.
  pose proof switch_cases_distinct as Hnd.
  apply NoDup_cons in Hnd as [Hd Hnd].
  apply NoDup_cons in Hnd as [Hi _].
  case_decide as E1.
  - exfalso. apply Hd. rewrite <- E1, Hc. set_solver.
  - case_decide as E2.
    + exfalso. apply Hi. rewrite <- E2, Hc. set_solver.
    + case_decide; [reflexivity | contradiction].
Qed.

Lemma Add_req_unknown (request : GenericBulkableAddRequest.t) :
  request.(GenericBulkableAddRequest.RequestType) ≠ BulkableDeleteRequest →
  request.(GenericBulkableAddRequest.RequestType) ≠ BulkableIndexRequest →
  request.(GenericBulkableAddRequest.RequestType) ≠ BulkableCreateRequest →
  Add_req request = None.
Proof. intros Hd Hi Hc. unfold Add_req. repeat case_decide; congruence. Qed.

(** C1 (as the code behaves): for a request whose type is none of the three
    known ones, the switch of [Add] leaves [req] nil, and [Add] still calls
    the processor's [Add]: the queue of the native engine grows by one
    entry, the nil request.  The operation is not dropped. *)
Theorem Add_unknown_type_enqueues_nil (request : GenericBulkableAddRequest.t)
    (v : v7BulkProcessor W) :
  request.(GenericBulkableAddRequest.RequestType) ≠ BulkableDeleteRequest →
  request.(GenericBulkableAddRequest.RequestType) ≠ BulkableIndexRequest →
  request.(GenericBulkableAddRequest.RequestType) ≠ BulkableCreateRequest →
  queued (Add request v) = queued v ++ [None]
  ∧ length (queued (Add request v)) = S (length (queued v)).
Proof.
  intros Hd Hi Hc.
  rewrite Add_queued, Add_req_unknown, length_app by assumption.
  simpl. split; [reflexivity | lia].
Qed.

(** C3: for a request of type Create, [Add] enqueues an index request with
    op-type "create" and version type "internal" whose version is not set,
    and Create requests that differ only in [VersionType] and [Version]
    enqueue the same native request. *)
Theorem Add_create_forces_internal (request : GenericBulkableAddRequest.t)
    (v : v7BulkProcessor W) :
  request.(GenericBulkableAddRequest.RequestType) = BulkableCreateRequest →
  (∃ r : elastic.BulkIndexRequest.t,
      queued (Add request v) = queued v ++ [Some (elastic.IndexRequest r)]
      ∧ r.(elastic.BulkIndexRequest.opType) = "create"
      ∧ r.(elastic.BulkIndexRequest.versionType) = "internal"
      ∧ r.(elastic.BulkIndexRequest.version) = None)
  ∧ (∀ (versionType' : string) (version' : Z),
      Add (GenericBulkableAddRequest.mk
             request.(GenericBulkableAddRequest.RequestType)
             request.(GenericBulkableAddRequest.Index)
             request.(GenericBulkableAddRequest.ID)
             versionType' version'
             request.(GenericBulkableAddRequest.Doc)) v
      = Add request v).
Proof.
  intros Hc. split.
  - eexists. rewrite Add_queued, Add_req_create by exact Hc.
    repeat split; reflexivity.
  - intros versionType' version'. unfold Add.
    rewrite !Add_req_create by exact Hc. reflexivity.
Qed.

(** C6: for a request of type Delete, [Add] enqueues a delete request that
    carries the caller's index, id, version type and version, and the
    document of the request plays no part: whatever [Doc] holds, nil
    included, the same native request is enqueued. *)
Theorem Add_delete_carries_fields (request : GenericBulkableAddRequest.t)
    (v : v7BulkProcessor W) :
  request.(GenericBulkableAddRequest.RequestType) = BulkableDeleteRequest →
  (∃ r : elastic.BulkDeleteRequest.t,
      queued (Add request v) = queued v ++ [Some (elastic.DeleteRequest r)]
      ∧ r.(elastic.BulkDeleteRequest.index)
        = request.(GenericBulkableAddRequest.Index)
      ∧ r.(elastic.BulkDeleteRequest.id)
        = request.(GenericBulkableAddRequest.ID)
      ∧ r.(elastic.BulkDeleteRequest.versionType)
        = request.(GenericBulkableAddRequest.VersionType)
      ∧ r.(elastic.BulkDeleteRequest.version)
        = request.(GenericBulkableAddRequest.Version))
  ∧ (∀ doc' : Go.any,
      Add (GenericBulkableAddRequest.mk
             request.(GenericBulkableAddRequest.RequestType)
             request.(GenericBulkableAddRequest.Index)
             request.(GenericBulkableAddRequest.ID)
             request.(GenericBulkableAddRequest.VersionType)
             request.(GenericBulkableAddRequest.Version)
             doc') v
      = Add request v).
Proof.
  intros Hd. split.
  - eexists. rewrite Add_queued, Add_req_delete by exact Hd.
    repeat split; reflexivity.
  - intros doc'. unfold Add.
    rewrite !Add_req_delete by exact Hd. reflexivity.
Qed.

(* ===================================================================== *)
(** ** Errors *)
(* ===================================================================== *)

(** The conversion of a non-nil error, by the type of the error. *)
Lemma convertV7ErrorToGenericError_elastic (e : elastic.Error.t) :
  convertV7ErrorToGenericError (Some (ElasticError e))
  = Some (GenericError.mk e.(elastic.Error.Status) (Some (ElasticError e))).
Proof. reflexivity. Qed.

Lemma convertV7ErrorToGenericError_other (msg : string) :
  convertV7ErrorToGenericError (Some (OtherError msg))
  = Some (GenericError.mk unknownStatusCode (Some (OtherError msg))).
Proof. reflexivity. Qed.

(** C2: an error that is a [*elastic.Error] converts to a generic error with
    the status of that error, any other non-nil error to a generic error
    with the unknown status code, and the nil error to nil. *)
Theorem convertV7ErrorToGenericError_status :
  (∀ e : elastic.Error.t,
      GenericError.Status <$> convertV7ErrorToGenericError (Some (ElasticError e))
      = Some e.(elastic.Error.Status))
  ∧ (∀ msg : string,
      GenericError.Status <$> convertV7ErrorToGenericError (Some (OtherError msg))
      = Some unknownStatusCode)
  ∧ convertV7ErrorToGenericError None = None.
Proof. repeat split. Qed.

(** C7: the generic error of a non-nil error keeps that error as its
    details, also when the status comes from a [*elastic.Error]. *)
Theorem convertV7ErrorToGenericError_details :
  (∀ ev : error_value,
      GenericError.Details <$> convertV7ErrorToGenericError (Some ev)
      = Some (Some ev))
  ∧ (∀ e : elastic.Error.t,
      convertV7ErrorToGenericError (Some (ElasticError e))
      = Some (GenericError.mk e.(elastic.Error.Status)
                (Some (ElasticError e)))).
Proof. split; [intros [e | msg] | intros e]; reflexivity. Qed.


(* ===================================================================== *)
(** ** Nil and empty values *)
(* ===================================================================== *)


(** C10: an empty item list that is not nil converts to the nil slice, as
    the nil item list does, and the same holds for request lists; a response
    with an empty item list converts to a response with nil items. *)
Theorem empty_slices_convert_to_nil :
  fromV7ToGenericBulkResponseItemMaps (Some []) = Go.Ok None
  ∧ fromV7ToGenericBulkResponseItemMaps (Some [])
    = fromV7ToGenericBulkResponseItemMaps None
  ∧ fromV7ToGenericBulkableRequests (Some []) = None
  ∧ fromV7ToGenericBulkableRequests (Some [])
    = fromV7ToGenericBulkableRequests None
  ∧ (∀ (took : Z) (errors : bool),
      fromV7toGenericBulkResponse
        (Some (elastic.BulkResponse.mk took errors (Some [])))
      = Go.Ok (Some (GenericBulkResponse.mk took errors None))).
Proof. repeat split. Qed.

(* ===================================================================== *)
(** ** Responses *)
(* ===================================================================== *)

Lemma fromV7ToGenericBulkResponseItem_Some (v : elastic.BulkResponseItem.t) :
  fromV7ToGenericBulkResponseItem (Some v) = Go.Ok (Some (item_of v)).
Proof. reflexivity. Qed.

Lemma fromV7ToGenericBulkResponseItem_nil :
  fromV7ToGenericBulkResponseItem None = Go.Panic.
Proof. reflexivity. Qed.

Lemma item_of_fields_agree (v : elastic.BulkResponseItem.t) :
  item_fields_agree v (item_of v).
Proof. repeat split. Qed.

(** The loop over an item map: it ends with one converted item per key when
    no value is nil, and panics when one is, in whatever order the entries
    are visited. *)
Lemma item_map_loop (m : gmap string (option elastic.BulkResponseItem.t)) :
  map_fold
    (λ k v (acc : Go.result (gmap string (option GenericBulkResponseItem.t))),
       gm ←! acc;
       gv ←! fromV7ToGenericBulkResponseItem v;
       Go.Ok (<[k := gv]> gm))
    (Go.Ok ∅) m
  = if decide (map_Forall (λ _ v, is_Some v) m)
    then Go.Ok (fmap (M := option) item_of <$> m)
    else Go.Panic.
Proof.
  set (P := λ (r : Go.result (gmap string (option GenericBulkResponseItem.t)))
              (m : gmap string (option elastic.BulkResponseItem.t)),
    (map_Forall (λ _ v, is_Some v) m → r = Go.Ok (fmap (M := option) item_of <$> m))
    ∧ (¬ map_Forall (λ _ v, is_Some v) m → r = Go.Panic)).
  assert (HP : P (map_fold
    (λ k v (acc : Go.result (gmap string (option GenericBulkResponseItem.t))),
       gm ←! acc;
       gv ←! fromV7ToGenericBulkResponseItem v;
       Go.Ok (<[k := gv]> gm))
    (Go.Ok ∅) m) m).
  { apply (map_fold_weak_ind P); clear m; unfold P.
    - split; [intros _; by rewrite fmap_empty |].
      intros Hno. destruct Hno. apply map_Forall_empty.
    - intros k v m r Hk [IHok IHpanic]. split.
      + intros Hins. apply map_Forall_insert in Hins as [[v' ->] Hm]; [| done].
        rewrite (IHok Hm). simpl. by rewrite fmap_insert.
      + intros Hno. destruct v as [v |].
        * rewrite IHpanic; [reflexivity |].
          intros Hm. apply Hno. apply map_Forall_insert_2; eauto.
        * by destruct r. }
  destruct HP as [Hok Hpanic].
  case_decide; auto.
Qed.

Lemma fromV7ToGenericBulkResponseItemMap_no_nil
    (m : Go.map (option elastic.BulkResponseItem.t)) :
  no_nil_item m →
  fromV7ToGenericBulkResponseItemMap m = Go.Ok (item_map_of m).
Proof.
  destruct m as [m |]; simpl; intros Hm; [| reflexivity].
  rewrite item_map_loop. by rewrite decide_True.
Qed.

Lemma fromV7ToGenericBulkResponseItemMap_nil_item
    (m : Go.map (option elastic.BulkResponseItem.t)) :
  ¬ no_nil_item m →
  fromV7ToGenericBulkResponseItemMap m = Go.Panic.
Proof.
  destruct m as [m |]; simpl; intros Hm; [| tauto].
  rewrite item_map_loop. by rewrite decide_False.
Qed.

Lemma item_map_of_agrees (m : Go.map (option elastic.BulkResponseItem.t)) :
  no_nil_item m → item_map_agrees m (item_map_of m).
Proof.
  destruct m as [m |]; simpl; [| done].
  intros Hm k. rewrite lookup_fmap.
  destruct (m !! k) as [[v |] |] eqn:Hk; simpl.
  - apply item_of_fields_agree.
  - by destruct (Hm k None Hk).
  - done.
Qed.

(** The loop over the item list, from any value of [gitems]. *)
Lemma item_maps_loop
    (l : list (Go.map (option elastic.BulkResponseItem.t)))
    (gitems : Go.slice (Go.map (option GenericBulkResponseItem.t))) :
  Forall no_nil_item l →
  fold_left
    (λ acc it,
       gitems ←! acc;
       git ←! fromV7ToGenericBulkResponseItemMap it;
       Go.Ok (Go.append gitems git))
    l (Go.Ok gitems)
  = Go.Ok (match l with
           | [] => gitems
           | _ => Some (Go.elems gitems ++ (item_map_of <$> l))
           end).
Proof.
  intros Hl. revert gitems.
  induction Hl as [| m l Hm Hl IH]; intros gitems; [reflexivity |].
  simpl. rewrite fromV7ToGenericBulkResponseItemMap_no_nil by exact Hm.
  simpl. rewrite IH. f_equal.
  destruct l as [| m' l]; simpl; [reflexivity |].
  unfold Go.append. simpl. by rewrite <- app_assoc.
Qed.

(** Once [gitems] holds a panic, the loop ends with it. *)
Lemma item_maps_loop_Panic
    (l : list (Go.map (option elastic.BulkResponseItem.t))) :
  fold_left
    (λ acc it,
       gitems ←! acc;
       git ←! fromV7ToGenericBulkResponseItemMap it;
       Go.Ok (Go.append gitems git))
    l Go.Panic
  = Go.Panic.
Proof. induction l as [| m l IH]; [reflexivity | exact IH]. Qed.

Lemma fromV7ToGenericBulkResponseItemMaps_no_nil
    (items : Go.slice (Go.map (option elastic.BulkResponseItem.t))) :
  Forall no_nil_item (Go.elems items) →
  ∃ gitems : Go.slice (Go.map (option GenericBulkResponseItem.t)),
    fromV7ToGenericBulkResponseItemMaps items = Go.Ok gitems
    ∧ Go.elems gitems = item_map_of <$> Go.elems items.
Proof.
  intros Hl. unfold fromV7ToGenericBulkResponseItemMaps.
  rewrite item_maps_loop by exact Hl.
  eexists. split; [reflexivity |].
  by destruct (Go.elems items).
Qed.

Lemma item_maps_agree
    (l : list (Go.map (option elastic.BulkResponseItem.t))) :
  Forall no_nil_item l → Forall2 item_map_agrees l (item_map_of <$> l).
Proof.
  induction 1 as [| m l Hm _ IH]; simpl; constructor; [| exact IH].
  by apply item_map_of_agrees.
Qed.

(** Where no item map holds a nil pointer, the conversion keeps everything
    the generic model has a slot for: a response whose item list is not nil
    converts to a generic response with the same [Took] and [Errors] and an
    item list of the same length whose maps, index by index, have the same
    keys and under each key an item with the nine fields of the native
    item; converting such an item back gives a native item with the same
    nine fields. *)
Theorem fromV7toGenericBulkResponse_preserves
    (response : elastic.BulkResponse.t)
    (l : list (Go.map (option elastic.BulkResponseItem.t))) :
  response.(elastic.BulkResponse.Items) = Some l →
  Forall no_nil_item l →
  ∃ g : GenericBulkResponse.t,
    fromV7toGenericBulkResponse (Some response) = Go.Ok (Some g)
    ∧ g.(GenericBulkResponse.Took) = response.(elastic.BulkResponse.Took)
    ∧ g.(GenericBulkResponse.Errors) = response.(elastic.BulkResponse.Errors)
    ∧ Go.len g.(GenericBulkResponse.Items) = length l
    ∧ Forall2 item_map_agrees l (Go.elems g.(GenericBulkResponse.Items))
    ∧ (∀ (i : nat) (m : gmap string (option elastic.BulkResponseItem.t))
         (k : string) (v : elastic.BulkResponseItem.t),
        l !! i = Some (Some m) → m !! k = Some (Some v) →
        ∃ (gm : gmap string (option GenericBulkResponseItem.t))
          (gv : GenericBulkResponseItem.t),
          Go.elems g.(GenericBulkResponse.Items) !! i = Some (Some gm)
          ∧ gm !! k = Some (Some gv)
          ∧ item_fields_agree v gv
          ∧ same_listed_fields v (toV7BulkResponseItem gv)).
Proof.
  intros Hitems Hl.
  destruct (fromV7ToGenericBulkResponseItemMaps_no_nil
              response.(elastic.BulkResponse.Items)) as (gitems & Hconv & Hel).
  { by rewrite Hitems. }
  rewrite Hitems in Hel. simpl in Hel.
  eexists. unfold fromV7toGenericBulkResponse. rewrite Hconv. simpl.
  split; [reflexivity |]. split; [reflexivity |]. split; [reflexivity |].
  change (Go.len gitems = length l
          ∧ Forall2 item_map_agrees l (Go.elems gitems)
          ∧ ∀ i m k v, l !! i = Some (Some m) → m !! k = Some (Some v) →
              ∃ gm gv, Go.elems gitems !! i = Some (Some gm)
                       ∧ gm !! k = Some (Some gv)
                       ∧ item_fields_agree v gv
                       ∧ same_listed_fields v (toV7BulkResponseItem gv)).
  unfold Go.len. rewrite Hel. split; [apply length_fmap |].
  split; [by apply item_maps_agree |].
  intros i m k v Hi Hk.
  exists (fmap (M := option) item_of <$> m), (item_of v).
  split; [by rewrite list_lookup_fmap, Hi |].
  split; [by rewrite lookup_fmap, Hk |].
  repeat split.
Qed.

(** A nil pointer in an item map makes the conversion of the item list
    panic, wherever in the list the map stands. *)
Lemma fromV7ToGenericBulkResponseItemMaps_nil_item
    (items : Go.slice (Go.map (option elastic.BulkResponseItem.t))) :
  Exists (λ m, ¬ no_nil_item m) (Go.elems items) →
  fromV7ToGenericBulkResponseItemMaps items = Go.Panic.
Proof.
  unfold fromV7ToGenericBulkResponseItemMaps.
  generalize (@None (list (Go.map (option GenericBulkResponseItem.t)))).
  induction (Go.elems items) as [| m l IH]; intros gitems Hex.
  - by apply Exists_nil in Hex.
  - simpl. destruct (decide (no_nil_item m)) as [Hm | Hm].
    + rewrite fromV7ToGenericBulkResponseItemMap_no_nil by exact Hm.
      simpl. apply IH. by apply Exists_cons in Hex as [? | ?].
    + rewrite fromV7ToGenericBulkResponseItemMap_nil_item by exact Hm.
      simpl. apply item_maps_loop_Panic.
Qed.

(** The conversion of a response returns exactly when no item map of the
    response holds a nil pointer. *)
Lemma fromV7toGenericBulkResponse_Panic_iff
    (response : option elastic.BulkResponse.t) :
  fromV7toGenericBulkResponse response = Go.Panic
  ↔ ∃ r, response = Some r
         ∧ Exists (λ m, ¬ no_nil_item m)
             (Go.elems r.(elastic.BulkResponse.Items)).
Proof.
  destruct response as [r |]; simpl.
  - destruct (decide (Forall no_nil_item
                        (Go.elems r.(elastic.BulkResponse.Items))))
      as [Hall | Hex].
    + destruct (fromV7ToGenericBulkResponseItemMaps_no_nil _ Hall)
        as (gitems & -> & _).
      simpl. split; [done |]. intros (r' & [= <-] & Hex).
      apply Exists_exists in Hex as (m & Hin & Hm).
      destruct Hm. by eapply Forall_forall in Hall.
    + apply not_Forall_Exists in Hex; [| apply _].
      rewrite fromV7ToGenericBulkResponseItemMaps_nil_item by exact Hex.
      simpl. split; [| done]. intros _. by exists r.
  - split; [done |]. by intros (r & [=] & _).
Qed.

(** C9 (as the code behaves): the conversion of an item is not defined on
    the nil pointer, and neither is the conversion of an item map, of an
    item list or of a response that holds one: each panics. *)
Theorem fromV7toGenericBulkResponse_nil_item_panics :
  fromV7ToGenericBulkResponseItem None = Go.Panic
  ∧ fromV7ToGenericBulkResponseItemMap (Some {[ "index" := None ]})
    = Go.Panic
  ∧ fromV7ToGenericBulkResponseItemMaps (Some [Some {[ "index" := None ]}])
    = Go.Panic
  ∧ fromV7toGenericBulkResponse
      (Some (elastic.BulkResponse.mk 5 false
               (Some [Some {[ "index" := None ]}])))
    = Go.Panic.
Proof. repeat split; vm_compute; reflexivity. Qed.

(** C5 (as the code behaves): a response with a non-nil list of two item
    maps, the second of which holds a nil pointer, has no converted
    response at all: the conversion panics, although the response with the
    first item map alone converts to one item map with the fields of the
    native item. *)
Theorem fromV7toGenericBulkResponse_nil_item_loses_response :
  fromV7toGenericBulkResponse
    (Some (elastic.BulkResponse.mk 12 true
             (Some [Some {[ "index" := Some indexed_item ]};
                    Some {[ "delete" := None ]}])))
  = Go.Panic
  ∧ fromV7toGenericBulkResponse
      (Some (elastic.BulkResponse.mk 12 true
               (Some [Some {[ "index" := Some indexed_item ]}])))
    = Go.Ok (Some (GenericBulkResponse.mk 12 true
               (Some [Some {[ "index" := Some (item_of indexed_item) ]}]))).
Proof. split; vm_compute; reflexivity. Qed.

(* ===================================================================== *)
(** ** The hooks *)
(* ===================================================================== *)

(** The loop of [fromV7ToGenericBulkableRequests], from any value of
    [v7Reqs]: the requests are appended one by one, in their order. *)
Lemma requests_loop (l : list elastic.BulkableRequest)
    (v7Reqs : Go.slice GenericBulkableRequest) :
  Go.elems (fold_left (λ v7Reqs req, Go.append v7Reqs req) l v7Reqs)
  = Go.elems v7Reqs ++ l.
Proof.
  revert v7Reqs. induction l as [| req l IH]; intros v7Reqs; simpl.
  - by rewrite app_nil_r.
  - rewrite IH. unfold Go.append. simpl. by rewrite <- app_assoc.
Qed.

(** The generic requests are the native requests, one for one and in the
    same order. *)
Lemma fromV7ToGenericBulkableRequests_elems
    (requests : Go.slice elastic.BulkableRequest) :
  Go.elems (fromV7ToGenericBulkableRequests requests) = Go.elems requests.
Proof. unfold fromV7ToGenericBulkableRequests. by rewrite requests_loop. Qed.

(** The processor [RunBulkProcessor] returns is bridged to the caller's
    hooks, and stays so when requests are added and batches committed. *)
Lemma RunBulkProcessor_bridged (startErr : error)
    (parameters : BulkProcessorParameters.t W) (v : v7BulkProcessor W) :
  (RunBulkProcessor startErr parameters).1 = Some v →
  bridged parameters v.(processor) ∧ queued v = [].
Proof.
  unfold RunBulkProcessor. destruct startErr; simpl; [done |].
  intros [= <-]. repeat split.
Qed.

Lemma RunBulkProcessor_error (startErr : error)
    (parameters : BulkProcessorParameters.t W) :
  (RunBulkProcessor startErr parameters).2 = startErr
  ∧ ((RunBulkProcessor startErr parameters).1 = None ↔ is_Some startErr).
Proof.
  unfold RunBulkProcessor. destruct startErr; simpl.
  - split; [done |]. split; eauto.
  - split; [done |]. split; [done |]. by intros [? [=]].
Qed.

Lemma Add_bridged (parameters : BulkProcessorParameters.t W)
    (request : GenericBulkableAddRequest.t) (v : v7BulkProcessor W) :
  bridged parameters v.(processor) →
  bridged parameters (Add request v).(processor).
Proof. intros [Hb Ha]. by split. Qed.

Lemma commit_bridged (parameters : BulkProcessorParameters.t W)
    (executionId : Z) (response : option elastic.BulkResponse.t)
    (err : error) (p p' : BulkProcessor.t W) (w w' : W) :
  bridged parameters p →
  BulkProcessor.commit executionId response err p w = Go.Ok (p', w') →
  bridged parameters p' ∧ p'.(BulkProcessor.requestsC) = [].
Proof.
  intros [Hb Ha]. unfold BulkProcessor.commit.
  destruct (match BulkProcessor.beforeFn p with
            | Some _ => _ | None => _ end) as [w1 |]; simpl; [| done].
  destruct (match BulkProcessor.afterFn p with
            | Some _ => _ | None => _ end) as [w2 |]; simpl; [| done].
  intros [= <- <-]. by repeat split.
Qed.

(** The outcome of a flush cycle of a processor bridged to the caller's
    hooks: the before-hook is called with the execution id of the engine
    and the translation of the queued batch, which has the length and the
    order of the batch; then the response is converted, and when that
    conversion returns, the after-hook is called with the same execution id
    and the same translation, the converted response and the converted
    error. *)
Theorem commit_passes_execution_id_and_batch
    (parameters : BulkProcessorParameters.t W) (p : BulkProcessor.t W)
    (executionId : Z) (response : option elastic.BulkResponse.t)
    (err : error) (w : W) :
  bridged parameters p →
  let ops :=
    fromV7ToGenericBulkableRequests (Some p.(BulkProcessor.requestsC)) in
  Go.len ops = length p.(BulkProcessor.requestsC)
  ∧ (∀ i : nat, Go.elems ops !! i = p.(BulkProcessor.requestsC) !! i)
  ∧ beforeFunc parameters executionId (Some p.(BulkProcessor.requestsC)) w
    = Go.Ok (parameters.(BulkProcessorParameters.BeforeFunc)
               executionId ops w)
  ∧ BulkProcessor.commit executionId response err p w
    = (gresp ←! fromV7toGenericBulkResponse response;
       Go.Ok
         (BulkProcessor.mk p.(BulkProcessor.name) p.(BulkProcessor.numWorkers)
            p.(BulkProcessor.bulkActions) p.(BulkProcessor.bulkSize)
            p.(BulkProcessor.flushInterval) p.(BulkProcessor.backoff)
            p.(BulkProcessor.beforeFn) p.(BulkProcessor.afterFn) [],
          parameters.(BulkProcessorParameters.AfterFunc) executionId ops
            gresp (convertV7ErrorToGenericError err)
            (parameters.(BulkProcessorParameters.BeforeFunc)
               executionId ops w))).
Proof.
  intros [Hb Ha] ops.
  assert (Hel : Go.elems ops = p.(BulkProcessor.requestsC)).
  { unfold ops. by rewrite fromV7ToGenericBulkableRequests_elems. }
  split; [unfold Go.len; by rewrite Hel |].
  split; [intros i; by rewrite Hel |].
  split; [reflexivity |].
  unfold BulkProcessor.commit. rewrite Hb, Ha. unfold beforeFunc, afterFunc.
  simpl. fold ops.
  by destruct (fromV7toGenericBulkResponse response).
Qed.

(* ===================================================================== *)
(** ** Further properties of [Add] *)
(* ===================================================================== *)

(** For a request of type Index, [Add] enqueues an index request with
    op-type "index" that carries the caller's index, id, version type,
    version and document. *)
Theorem Add_index_carries_fields (request : GenericBulkableAddRequest.t)
    (v : v7BulkProcessor W) :
  request.(GenericBulkableAddRequest.RequestType) = BulkableIndexRequest →
  ∃ r : elastic.BulkIndexRequest.t,
    queued (Add request v) = queued v ++ [Some (elastic.IndexRequest r)]
    ∧ r.(elastic.BulkIndexRequest.opType) = "index"
    ∧ r.(elastic.BulkIndexRequest.index)
      = request.(GenericBulkableAddRequest.Index)
    ∧ r.(elastic.BulkIndexRequest.id)
      = request.(GenericBulkableAddRequest.ID)
    ∧ r.(elastic.BulkIndexRequest.versionType)
      = request.(GenericBulkableAddRequest.VersionType)
    ∧ r.(elastic.BulkIndexRequest.version)
      = Some request.(GenericBulkableAddRequest.Version)
    ∧ r.(elastic.BulkIndexRequest.doc)
      = request.(GenericBulkableAddRequest.Doc).
Proof.
  intros Hi. eexists. rewrite Add_queued, Add_req_index by exact Hi.
  repeat split; reflexivity.
Qed.

(** The kind of the native request tells the type of the generic one: it
    is nil exactly for an unknown type, a delete request exactly for
    Delete, an index request with op-type "index" exactly for Index and
    with op-type "create" exactly for Create. *)
Theorem Add_req_kind (request : GenericBulkableAddRequest.t) :
  (Add_req request = None
   ↔ request.(GenericBulkableAddRequest.RequestType) ≠ BulkableDeleteRequest
     ∧ request.(GenericBulkableAddRequest.RequestType) ≠ BulkableIndexRequest
     ∧ request.(GenericBulkableAddRequest.RequestType)
       ≠ BulkableCreateRequest)
  ∧ ((∃ r, Add_req request = Some (elastic.DeleteRequest r))
     ↔ request.(GenericBulkableAddRequest.RequestType)
       = BulkableDeleteRequest)
  ∧ ((∃ r, Add_req request = Some (elastic.IndexRequest r)
           ∧ r.(elastic.BulkIndexRequest.opType) = "index")
     ↔ request.(GenericBulkableAddRequest.RequestType)
       = BulkableIndexRequest)
  ∧ ((∃ r, Add_req request = Some (elastic.IndexRequest r)
           ∧ r.(elastic.BulkIndexRequest.opType) = "create")
     ↔ request.(GenericBulkableAddRequest.RequestType)
       = BulkableCreateRequest).
Proof.
  assert (Hdistinct : BulkableDeleteRequest ≠ BulkableIndexRequest
                      ∧ BulkableDeleteRequest ≠ BulkableCreateRequest
                      ∧ BulkableIndexRequest ≠ BulkableCreateRequest).
  { pose proof switch_cases_distinct as Hnd.
    apply NoDup_cons in Hnd as [Hd Hnd].
    apply NoDup_cons in Hnd as [Hi _].
    set_solver. }
  destruct Hdistinct as (Hdi & Hdc & Hic).
  destruct (decide (request.(GenericBulkableAddRequest.RequestType)
                    = BulkableDeleteRequest)) as [Hd | Hd];
    [rewrite (Add_req_delete _ Hd) |
     destruct (decide (request.(GenericBulkableAddRequest.RequestType)
                       = BulkableIndexRequest)) as [Hi | Hi];
     [rewrite (Add_req_index _ Hi) |
      destruct (decide (request.(GenericBulkableAddRequest.RequestType)
                        = BulkableCreateRequest)) as [Hc | Hc];
      [rewrite (Add_req_create _ Hc) |
       rewrite (Add_req_unknown _ Hd Hi Hc)]]].
  all: repeat split; try done.
  all: try (intros (? & ? & ?); simplify_eq/=; done).
  all: try (intros (? & ?); simplify_eq/=; done).
  all: try (intros; eexists; split; [reflexivity | done]).
  all: try (intros; eexists; reflexivity).
  all: intros; congruence.
Qed.

(** The translation of Index requests loses nothing: two requests of type
    Index for which [Add] builds the same native request are equal. *)
Theorem Add_req_index_injective (request request' : GenericBulkableAddRequest.t) :
  request.(GenericBulkableAddRequest.RequestType) = BulkableIndexRequest →
  request'.(GenericBulkableAddRequest.RequestType) = BulkableIndexRequest →
  Add_req request = Add_req request' →
  request = request'.
Proof.
  intros Hi Hi'. rewrite (Add_req_index _ Hi), (Add_req_index _ Hi').
  destruct request, request'. simpl in *. intros [=]. congruence.
Qed.

(** What [Add] forgets of a Delete request is its document and nothing
    else: two requests of type Delete give the same native request exactly
    when they agree on index, id, version type and version. *)
Theorem Add_req_delete_eq_iff (request request' : GenericBulkableAddRequest.t) :
  request.(GenericBulkableAddRequest.RequestType) = BulkableDeleteRequest →
  request'.(GenericBulkableAddRequest.RequestType) = BulkableDeleteRequest →
  Add_req request = Add_req request'
  ↔ request.(GenericBulkableAddRequest.Index)
    = request'.(GenericBulkableAddRequest.Index)
    ∧ request.(GenericBulkableAddRequest.ID)
      = request'.(GenericBulkableAddRequest.ID)
    ∧ request.(GenericBulkableAddRequest.VersionType)
      = request'.(GenericBulkableAddRequest.VersionType)
    ∧ request.(GenericBulkableAddRequest.Version)
      = request'.(GenericBulkableAddRequest.Version).
Proof.
  intros Hd Hd'. rewrite (Add_req_delete _ Hd), (Add_req_delete _ Hd').
  split.
  - intros [=]. done.
  - intros (-> & -> & -> & ->). reflexivity.
Qed.

(** What [Add] forgets of a Create request is its version type and its
    version and nothing else: two requests of type Create give the same
    native request exactly when they agree on index, id and document. *)
Theorem Add_req_create_eq_iff (request request' : GenericBulkableAddRequest.t) :
  request.(GenericBulkableAddRequest.RequestType) = BulkableCreateRequest →
  request'.(GenericBulkableAddRequest.RequestType) = BulkableCreateRequest →
  Add_req request = Add_req request'
  ↔ request.(GenericBulkableAddRequest.Index)
    = request'.(GenericBulkableAddRequest.Index)
    ∧ request.(GenericBulkableAddRequest.ID)
      = request'.(GenericBulkableAddRequest.ID)
    ∧ request.(GenericBulkableAddRequest.Doc)
      = request'.(GenericBulkableAddRequest.Doc).
Proof.
  intros Hc Hc'. rewrite (Add_req_create _ Hc), (Add_req_create _ Hc').
  split.
  - intros [=]. done.
  - intros (-> & -> & ->). reflexivity.
Qed.

Lemma Add_all_processor (requests : list GenericBulkableAddRequest.t)
    (v : v7BulkProcessor W) :
  (Add_all requests v).(processor)
  = BulkProcessor.mk
      v.(processor).(BulkProcessor.name)
      v.(processor).(BulkProcessor.numWorkers)
      v.(processor).(BulkProcessor.bulkActions)
      v.(processor).(BulkProcessor.bulkSize)
      v.(processor).(BulkProcessor.flushInterval)
      v.(processor).(BulkProcessor.backoff)
      v.(processor).(BulkProcessor.beforeFn)
      v.(processor).(BulkProcessor.afterFn)
      (queued v ++ (Add_req <$> requests)).
Proof.
  revert v. induction requests as [| request requests IH]; intros v.
  - simpl. rewrite app_nil_r. by destruct v as [[]].
  - change (Add_all (request :: requests) v)
      with (Add_all requests (Add request v)).
    rewrite IH, Add_queued. simpl. by rewrite <- app_assoc.
Qed.

(** Requests added one after the other stand in the queue in the order of
    the calls, behind the requests already queued, one entry per call; the
    hooks of the processor stay as they were. *)
Theorem Add_all_in_order (requests : list GenericBulkableAddRequest.t)
    (v : v7BulkProcessor W) :
  queued (Add_all requests v) = queued v ++ (Add_req <$> requests)
  ∧ length (queued (Add_all requests v))
    = (length (queued v) + length requests)%nat
  ∧ (Add_all requests v).(processor).(BulkProcessor.beforeFn)
    = v.(processor).(BulkProcessor.beforeFn)
  ∧ (Add_all requests v).(processor).(BulkProcessor.afterFn)
    = v.(processor).(BulkProcessor.afterFn).
Proof.
  unfold queued at 1 3. rewrite !Add_all_processor. simpl.
  rewrite length_app, length_fmap. repeat split.
Qed.

(* ===================================================================== *)
(** ** Further properties of the conversions *)
(* ===================================================================== *)



(** The generic requests are the native requests, one for one and in their
    order, whatever the slice; the generic slice is nil exactly when the
    native one has no element, be it nil or empty. *)
Theorem fromV7ToGenericBulkableRequests_same_requests
    (requests : Go.slice elastic.BulkableRequest) :
  Go.elems (fromV7ToGenericBulkableRequests requests) = Go.elems requests
  ∧ Go.len (fromV7ToGenericBulkableRequests requests) = Go.len requests
  ∧ (fromV7ToGenericBulkableRequests requests = None
     ↔ Go.elems requests = []).
Proof.
  assert (Hel : Go.elems (fromV7ToGenericBulkableRequests requests)
                = Go.elems requests).
  { unfold fromV7ToGenericBulkableRequests. by rewrite requests_loop. }
  split; [exact Hel |]. split; [unfold Go.len; by rewrite Hel |].
  split.
  - intros Hnil. by rewrite <- Hel, Hnil.
  - destruct requests as [l |]; simpl; [| done].
    intros ->. reflexivity.
Qed.

(** Once the accumulator holds a panic, the loop over the entries ends with
    it. *)
Lemma range_item_map_Panic
    (entries : list (string * option elastic.BulkResponseItem.t)) :
  fold_left
    (λ (acc : Go.result (gmap string (option GenericBulkResponseItem.t)))
       '(k, v),
       gm ←! acc;
       gv ←! fromV7ToGenericBulkResponseItem v;
       Go.Ok (<[k := gv]> gm))
    entries Go.Panic
  = Go.Panic.
Proof. induction entries as [| [k v] entries IH]; [reflexivity | exact IH]. Qed.

Lemma range_item_map_from
    (entries : list (string * option elastic.BulkResponseItem.t))
    (acc : gmap string (option GenericBulkResponseItem.t)) :
  NoDup entries.*1 →
  Forall (λ kv, is_Some kv.2) entries →
  fold_left
    (λ (acc : Go.result (gmap string (option GenericBulkResponseItem.t)))
       '(k, v),
       gm ←! acc;
       gv ←! fromV7ToGenericBulkResponseItem v;
       Go.Ok (<[k := gv]> gm))
    entries (Go.Ok acc)
  = Go.Ok (list_to_map (prod_map id (fmap (M := option) item_of) <$> entries)
           ∪ acc).
Proof.
  intros Hnd Hall. revert acc.
  induction Hall as [| [k v] entries [v' Hv] Hall IH]; intros acc.
  - simpl. by rewrite (left_id_L ∅ (∪)).
  - simpl in Hv. subst v. apply NoDup_cons in Hnd as [Hk Hnd].
    cbn [fold_left Go.bind fromV7ToGenericBulkResponseItem].
    rewrite (IH Hnd). f_equal. cbn [fmap list_fmap prod_map fst snd id].
    cbn [list_to_map foldr uncurry].
    rewrite <- insert_union_r, insert_union_l; [reflexivity |].
    apply not_elem_of_list_to_map_1.
    rewrite <- list_fmap_compose.
    erewrite list_fmap_ext; [exact Hk |]. by intros ? [].
Qed.

Lemma range_item_map_nil_item
    (entries : list (string * option elastic.BulkResponseItem.t))
    (acc : Go.result (gmap string (option GenericBulkResponseItem.t))) :
  ¬ Forall (λ kv, is_Some kv.2) entries →
  fold_left
    (λ (acc : Go.result (gmap string (option GenericBulkResponseItem.t)))
       '(k, v),
       gm ←! acc;
       gv ←! fromV7ToGenericBulkResponseItem v;
       Go.Ok (<[k := gv]> gm))
    entries acc
  = Go.Panic.
Proof.
  revert acc. induction entries as [| [k v] entries IH]; intros acc Hno.
  - destruct Hno. constructor.
  - cbn [fold_left]. destruct v as [v |].
    + apply IH. intros Hall. apply Hno. constructor; [by eexists | exact Hall].
    + replace (gm ←! acc; gv ←! fromV7ToGenericBulkResponseItem None;
               Go.Ok (<[k := gv]> gm))
        with (@Go.Panic (gmap string (option GenericBulkResponseItem.t)))
        by (by destruct acc).
      apply range_item_map_Panic.
Qed.

(** The entries of an item map may be visited in any order: the loop ends
    with the same result, the one [fromV7ToGenericBulkResponseItemMap] is
    modelled with. *)
Theorem range_item_map_any_order
    (m : gmap string (option elastic.BulkResponseItem.t))
    (entries : list (string * option elastic.BulkResponseItem.t)) :
  entries ≡ₚ map_to_list m →
  (gm ←! range_item_map entries; Go.Ok (Some gm))
  = fromV7ToGenericBulkResponseItemMap (Some m).
Proof.
  intros Hperm.
  assert (Hnd : NoDup entries.*1).
  { rewrite Hperm. apply NoDup_fst_map_to_list. }
  assert (Hm : list_to_map entries = m).
  { rewrite (list_to_map_proper _ _ Hnd Hperm). apply list_to_map_to_list. }
  assert (Hiff : Forall (λ kv, is_Some kv.2) entries
                 ↔ map_Forall (λ _ v, is_Some v) m).
  { rewrite map_Forall_to_list, <- Hperm.
    split; intros Hall; (eapply Forall_impl; [exact Hall |]); by intros []. }
  unfold range_item_map, fromV7ToGenericBulkResponseItemMap.
  rewrite item_map_loop.
  destruct (decide (map_Forall (λ _ v, is_Some v) m)) as [Hall | Hno].
  - rewrite range_item_map_from by (exact Hnd || by apply Hiff).
    by rewrite (right_id_L ∅ (∪)), list_to_map_fmap, Hm.
  - rewrite range_item_map_nil_item; [reflexivity |].
    intros Hall. apply Hno. by apply Hiff.
Qed.

(* ===================================================================== *)
(** ** Further properties of the processor and its hooks *)
(* ===================================================================== *)

(** What [RunBulkProcessor] configures stays: every processor a caller gets
    hold of has the two closures over the caller's parameters as its hooks
    and the name, worker count, batch limits, flush interval and backoff of
    the parameters. *)
Theorem reachable_keeps_parameters
    (parameters : BulkProcessorParameters.t W) (v : v7BulkProcessor W) :
  reachable parameters v →
  bridged parameters v.(processor)
  ∧ v.(processor).(BulkProcessor.name)
    = parameters.(BulkProcessorParameters.Name)
  ∧ v.(processor).(BulkProcessor.numWorkers)
    = parameters.(BulkProcessorParameters.NumOfWorkers)
  ∧ v.(processor).(BulkProcessor.bulkActions)
    = parameters.(BulkProcessorParameters.BulkActions)
  ∧ v.(processor).(BulkProcessor.bulkSize)
    = parameters.(BulkProcessorParameters.BulkSize)
  ∧ v.(processor).(BulkProcessor.flushInterval)
    = parameters.(BulkProcessorParameters.FlushInterval)
  ∧ v.(processor).(BulkProcessor.backoff)
    = parameters.(BulkProcessorParameters.Backoff).
Proof.
  induction 1 as [startErr v Hrun | request v _ IH
                 | executionId response err v p' w w' _ IH Hcommit].
  - unfold RunBulkProcessor in Hrun. destruct startErr; simpl in Hrun;
      [done |]. injection Hrun as <-. repeat split.
  - exact IH.
  - destruct IH as ([Hb Ha] & IH). unfold BulkProcessor.commit in Hcommit.
    destruct (match BulkProcessor.beforeFn (processor v) with
              | Some _ => _ | None => _ end) as [w1 |];
      simpl in Hcommit; [| done].
    destruct (match BulkProcessor.afterFn (processor v) with
              | Some _ => _ | None => _ end) as [w2 |];
      simpl in Hcommit; [| done].
    injection Hcommit as <- <-. split; [by split | exact IH].
Qed.

(** C8 (as the code behaves): in a flush cycle whose response holds a nil
    item pointer, the before-hook of the caller is called with the
    execution id and the translated batch, but the closure for the
    after-hook panics while it converts the response, which it does before
    it calls the caller's after-hook: that hook is handed neither the
    execution id nor the batch, whatever the caller's hooks are, and the
    flush cycle ends in a panic. *)
Theorem commit_nil_item_skips_after_hook
    (parameters : BulkProcessorParameters.t W) (p : BulkProcessor.t W)
    (executionId : Z) (response : elastic.BulkResponse.t)
    (err : error) (w : W) :
  bridged parameters p →
  Exists (λ m, ¬ no_nil_item m)
    (Go.elems response.(elastic.BulkResponse.Items)) →
  beforeFunc parameters executionId (Some p.(BulkProcessor.requestsC)) w
  = Go.Ok (parameters.(BulkProcessorParameters.BeforeFunc) executionId
             (fromV7ToGenericBulkableRequests
                (Some p.(BulkProcessor.requestsC))) w)
  ∧ (∀ w' : W,
      afterFunc parameters executionId (Some p.(BulkProcessor.requestsC))
        (Some response) err w'
      = Go.Panic)
  ∧ BulkProcessor.commit executionId (Some response) err p w = Go.Panic.
Proof.
  intros [Hb Ha] Hex.
  assert (Hafter : ∀ w' : W,
    afterFunc parameters executionId (Some p.(BulkProcessor.requestsC))
      (Some response) err w' = Go.Panic).
  { intros w'. unfold afterFunc, fromV7toGenericBulkResponse.
    by rewrite (fromV7ToGenericBulkResponseItemMaps_nil_item _ Hex). }
  split; [reflexivity |]. split; [exact Hafter |].
  unfold BulkProcessor.commit. rewrite Hb, Ha.
  unfold beforeFunc at 1. simpl. by rewrite Hafter.
Qed.


End Adapter.

(* ===================================================================== *)
(** ** The statements at sample values *)
(* ===================================================================== *)

(** Below, the request types are numbered Index = 0, Delete = 1 and
    Create = 2, and the unknown status code is -1. *)

Lemma Add_unknown_type_enqueues_nil_witness :
  (7 ≠ 1 ∧ 7 ≠ 0 ∧ 7 ≠ 2)
  ∧ queued (Add 1 0 2
              (GenericBulkableAddRequest.mk 7 "idx" "doc9" "external" 3
                 (Some "{}"))
              idle_processor)
    = [None].
Proof.
  split; [repeat split; lia |].
  apply (Add_unknown_type_enqueues_nil 1 0 2
           (GenericBulkableAddRequest.mk 7 "idx" "doc9" "external" 3
              (Some "{}"))
           idle_processor); simpl; lia.
Defined.

Lemma Add_create_forces_internal_witness :
  NoDup [1; 0; 2]
  ∧ ∃ r : elastic.BulkIndexRequest.t,
      queued (Add 1 0 2
                (GenericBulkableAddRequest.mk 2 "idx" "doc3" "external" 42
                   (Some "{}"))
                idle_processor)
      = [] ++ [Some (elastic.IndexRequest r)]
      ∧ r.(elastic.BulkIndexRequest.opType) = "create"
      ∧ r.(elastic.BulkIndexRequest.versionType) = "internal"
      ∧ r.(elastic.BulkIndexRequest.version) = None.
Proof.
  assert (Hnd : NoDup [1; 0; 2]).
  { apply (bool_decide_unpack _). vm_compute. reflexivity. }
  split; [exact Hnd |].
  apply (Add_create_forces_internal 1 0 2 Hnd
           (GenericBulkableAddRequest.mk 2 "idx" "doc3" "external" 42
              (Some "{}"))
           idle_processor).
  reflexivity.
Defined.

Lemma Add_delete_carries_fields_witness :
  ∃ r : elastic.BulkDeleteRequest.t,
    queued (Add 1 0 2
              (GenericBulkableAddRequest.mk 1 "idx" "doc2" "external" 42 None)
              idle_processor)
    = [] ++ [Some (elastic.DeleteRequest r)]
    ∧ r.(elastic.BulkDeleteRequest.index) = "idx"
    ∧ r.(elastic.BulkDeleteRequest.id) = "doc2"
    ∧ r.(elastic.BulkDeleteRequest.versionType) = "external"
    ∧ r.(elastic.BulkDeleteRequest.version) = 42.
Proof.
  apply (Add_delete_carries_fields 1 0 2
           (GenericBulkableAddRequest.mk 1 "idx" "doc2" "external" 42 None)
           idle_processor).
  reflexivity.
Defined.

Lemma fromV7toGenericBulkResponse_preserves_witness :
  Forall no_nil_item [Some {[ "index" := Some indexed_item ]}; None]
  ∧ ∃ g : GenericBulkResponse.t,
      fromV7toGenericBulkResponse
        (Some (elastic.BulkResponse.mk 12 false
                 (Some [Some {[ "index" := Some indexed_item ]}; None])))
      = Go.Ok (Some g)
      ∧ g.(GenericBulkResponse.Took) = 12
      ∧ g.(GenericBulkResponse.Errors) = false
      ∧ Go.len g.(GenericBulkResponse.Items) = 2%nat.
Proof.
  assert (Hl : Forall no_nil_item
                 [Some {[ "index" := Some indexed_item ]}; None]).
  { apply (bool_decide_unpack _). vm_compute. reflexivity. }
  split; [exact Hl |].
  destruct (fromV7toGenericBulkResponse_preserves
              (elastic.BulkResponse.mk 12 false
                 (Some [Some {[ "index" := Some indexed_item ]}; None]))
              [Some {[ "index" := Some indexed_item ]}; None]
              eq_refl Hl)
    as (g & Hg & Htook & Herrors & Hlen & _).
  exists g. repeat split; assumption.
Defined.

Lemma commit_passes_execution_id_and_batch_witness :
  bridged (-1) logging_parameters
    (BulkProcessor.mk "visibility" 1 1000 0 0 None
       (Some (beforeFunc logging_parameters))
       (Some (afterFunc (-1) logging_parameters))
       [None; Some (elastic.DeleteRequest elastic.NewBulkDeleteRequest)])
  ∧ BulkProcessor.commit 17 None None
      (BulkProcessor.mk "visibility" 1 1000 0 0 None
         (Some (beforeFunc logging_parameters))
         (Some (afterFunc (-1) logging_parameters))
         [None; Some (elastic.DeleteRequest elastic.NewBulkDeleteRequest)])
      []
    = Go.Ok
        (BulkProcessor.mk "visibility" 1 1000 0 0 None
           (Some (beforeFunc logging_parameters))
           (Some (afterFunc (-1) logging_parameters))
           [],
         [(17, 2%nat); (17, 2%nat)]).
Proof.
  assert (Hb : bridged (-1) logging_parameters
    (BulkProcessor.mk "visibility" 1 1000 0 0 None
       (Some (beforeFunc logging_parameters))
       (Some (afterFunc (-1) logging_parameters))
       [None; Some (elastic.DeleteRequest elastic.NewBulkDeleteRequest)])).
  { split; reflexivity. }
  split; [exact Hb |].
  destruct (commit_passes_execution_id_and_batch (-1) logging_parameters _
              17 None None [] Hb) as (_ & _ & _ & Hcommit).
  rewrite Hcommit. reflexivity.
Defined.

(** An Index request for the document "doc1" reaches the queue as an index
    request with op-type "index" that carries the caller's version. *)
Example Add_index_doc1 :
  queued (Add 1 0 2
            (GenericBulkableAddRequest.mk 0 "idx" "doc1" "external" 5
               (Some "{a:1}"))
            idle_processor)
  = [Some (elastic.IndexRequest
             (elastic.BulkIndexRequest.mk "idx" "doc1" "index" "external"
                (Some 5) (Some "{a:1}")))].
Proof. reflexivity. Qed.

(** Requests keep their submission order in the queue. *)
Example Add_twice_in_order :
  queued (Add 1 0 2
            (GenericBulkableAddRequest.mk 1 "idx" "doc2" "internal" 0 None)
            (Add 1 0 2
               (GenericBulkableAddRequest.mk 2 "idx" "doc1" "external" 9
                  (Some "{a:1}"))
               idle_processor))
  = [Some (elastic.IndexRequest
             (elastic.BulkIndexRequest.mk "idx" "doc1" "create" "internal"
                None (Some "{a:1}")));
     Some (elastic.DeleteRequest
             (elastic.BulkDeleteRequest.mk "idx" "doc2" "internal" 0))].
Proof. reflexivity. Qed.

(** A response with one indexed item converts to a response with one item
    map keyed "index". *)
Example fromV7toGenericBulkResponse_one_item :
  fromV7toGenericBulkResponse
    (Some (elastic.BulkResponse.mk 12 false
             (Some [Some {[ "index" := Some indexed_item ]}])))
  = Go.Ok (Some (GenericBulkResponse.mk 12 false
             (Some [Some {[ "index" :=
                Some (GenericBulkResponseItem.mk "cadence-visibility" "_doc"
                        "doc1" 1 "created" 0 1 201 false) ]}]))).
Proof. vm_compute. reflexivity. Qed.

(** A transport error has the unknown status and is kept as the details;
    an error of the backend has its own status. *)
Example convertV7ErrorToGenericError_samples :
  convertV7ErrorToGenericError (-1) (Some (OtherError "connection refused"))
  = Some (GenericError.mk (-1) (Some (OtherError "connection refused")))
  ∧ convertV7ErrorToGenericError (-1)
      (Some (ElasticError (elastic.Error.mk 409 None)))
    = Some (GenericError.mk 409
              (Some (ElasticError (elastic.Error.mk 409 None)))).
Proof. split; reflexivity. Qed.

(** A processor run with the logging parameters: one request is added and
    the batch fails to commit; both hooks log the execution id and one
    operation. *)
Example flush_after_one_Add :
  match RunBulkProcessor (-1) None logging_parameters with
  | (Some v, None) =>
      BulkProcessor.commit 1 None (Some (OtherError "timeout"))
        (Add 1 0 2
           (GenericBulkableAddRequest.mk 1 "idx" "doc2" "internal" 0 None)
           v).(processor)
        []
      = Go.Ok (v.(processor), [(1, 1%nat); (1, 1%nat)])
  | _ => False
  end.
Proof. reflexivity. Qed.

Lemma Add_index_carries_fields_witness :
  ∃ r : elastic.BulkIndexRequest.t,
    queued (Add 1 0 2
              (GenericBulkableAddRequest.mk 0 "idx" "doc1" "external" 5
                 (Some "{a:1}"))
              idle_processor)
    = [] ++ [Some (elastic.IndexRequest r)]
    ∧ r.(elastic.BulkIndexRequest.opType) = "index"
    ∧ r.(elastic.BulkIndexRequest.index) = "idx"
    ∧ r.(elastic.BulkIndexRequest.id) = "doc1"
    ∧ r.(elastic.BulkIndexRequest.versionType) = "external"
    ∧ r.(elastic.BulkIndexRequest.version) = Some 5
    ∧ r.(elastic.BulkIndexRequest.doc) = Some "{a:1}".
Proof.
  assert (Hnd : NoDup [1; 0; 2]).
  { apply (bool_decide_unpack _). vm_compute. reflexivity. }
  apply (Add_index_carries_fields 1 0 2 Hnd
           (GenericBulkableAddRequest.mk 0 "idx" "doc1" "external" 5
              (Some "{a:1}"))
           idle_processor).
  reflexivity.
Defined.

Lemma Add_req_kind_witness :
  NoDup [1; 0; 2]
  ∧ ((∃ r, Add_req 1 0 2
             (GenericBulkableAddRequest.mk 2 "idx" "doc3" "external" 42
                (Some "{}"))
           = Some (elastic.IndexRequest r)
           ∧ r.(elastic.BulkIndexRequest.opType) = "create")
     ↔ 2 = 2).
Proof.
  assert (Hnd : NoDup [1; 0; 2]).
  { apply (bool_decide_unpack _). vm_compute. reflexivity. }
  split; [exact Hnd |].
  apply (Add_req_kind 1 0 2 Hnd
           (GenericBulkableAddRequest.mk 2 "idx" "doc3" "external" 42
              (Some "{}"))).
Defined.

Lemma Add_req_index_injective_witness :
  Add_req 1 0 2
    (GenericBulkableAddRequest.mk 0 "idx" "doc1" "external" 5 (Some "{a:1}"))
  = Add_req 1 0 2
      (GenericBulkableAddRequest.mk 0 "idx" "doc1" "external" 5
         (Some "{a:1}"))
  ∧ GenericBulkableAddRequest.mk 0 "idx" "doc1" "external" 5 (Some "{a:1}")
    = GenericBulkableAddRequest.mk 0 "idx" "doc1" "external" 5 (Some "{a:1}").
Proof.
  assert (Hnd : NoDup [1; 0; 2]).
  { apply (bool_decide_unpack _). vm_compute. reflexivity. }
  split; [reflexivity |].
  apply (Add_req_index_injective 1 0 2 Hnd); reflexivity.
Defined.

Lemma range_item_map_any_order_witness :
  [("delete", Some indexed_item); ("index", Some indexed_item)]
    ≡ₚ map_to_list
         (<[ "index" := Some indexed_item ]>
            {[ "delete" := Some indexed_item ]})
  ∧ (gm ←! range_item_map
             [("delete", Some indexed_item); ("index", Some indexed_item)];
     Go.Ok (Some gm))
    = fromV7ToGenericBulkResponseItemMap
        (Some (<[ "index" := Some indexed_item ]>
                 {[ "delete" := Some indexed_item ]})).
Proof.
  assert (Hperm :
    [("delete", Some indexed_item); ("index", Some indexed_item)]
      ≡ₚ map_to_list
           (<[ "index" := Some indexed_item ]>
              ({[ "delete" := Some indexed_item ]}
                 : gmap string (option elastic.BulkResponseItem.t)))).
  { vm_compute. apply perm_swap. }
  split; [exact Hperm |].
  apply (range_item_map_any_order _ _ Hperm).
Defined.

Lemma reachable_keeps_parameters_witness :
  reachable 1 0 2 (-1) logging_parameters
    (Add 1 0 2
       (GenericBulkableAddRequest.mk 1 "idx" "doc2" "internal" 0 None)
       (mk_v7BulkProcessor
          (BulkProcessor.mk "visibility" 1 1000 0 0 None
             (Some (beforeFunc logging_parameters))
             (Some (afterFunc (-1) logging_parameters))
             [])))
  ∧ bridged (-1) logging_parameters
      (Add 1 0 2
         (GenericBulkableAddRequest.mk 1 "idx" "doc2" "internal" 0 None)
         (mk_v7BulkProcessor
            (BulkProcessor.mk "visibility" 1 1000 0 0 None
               (Some (beforeFunc logging_parameters))
               (Some (afterFunc (-1) logging_parameters))
               []))).(processor).
Proof.
  assert (Hr : reachable 1 0 2 (-1) logging_parameters
    (Add 1 0 2
       (GenericBulkableAddRequest.mk 1 "idx" "doc2" "internal" 0 None)
       (mk_v7BulkProcessor
          (BulkProcessor.mk "visibility" 1 1000 0 0 None
             (Some (beforeFunc logging_parameters))
             (Some (afterFunc (-1) logging_parameters))
             [])))).
  { apply reachable_Add. apply (reachable_Run 1 0 2 (-1) _ None). reflexivity. }
  split; [exact Hr |].
  apply (reachable_keeps_parameters 1 0 2 (-1) logging_parameters _ Hr).
Defined.

Lemma commit_nil_item_skips_after_hook_witness :
  bridged (-1) logging_parameters
    (BulkProcessor.mk "visibility" 1 1000 0 0 None
       (Some (beforeFunc logging_parameters))
       (Some (afterFunc (-1) logging_parameters))
       [None])
  ∧ Exists (λ m, ¬ no_nil_item m) [Some {[ "index" := None ]}]
  ∧ beforeFunc logging_parameters 3 (Some [None]) [] = Go.Ok [(3, 1%nat)]
  ∧ (∀ w' : list (Z * nat),
      afterFunc (-1) logging_parameters 3 (Some [None])
        (Some (elastic.BulkResponse.mk 5 true
                 (Some [Some {[ "index" := None ]}])))
        None w'
      = Go.Panic)
  ∧ BulkProcessor.commit 3
      (Some (elastic.BulkResponse.mk 5 true
               (Some [Some {[ "index" := None ]}])))
      None
      (BulkProcessor.mk "visibility" 1 1000 0 0 None
         (Some (beforeFunc logging_parameters))
         (Some (afterFunc (-1) logging_parameters))
         [None])
      []
    = Go.Panic.
Proof.
  assert (Hb : bridged (-1) logging_parameters
    (BulkProcessor.mk "visibility" 1 1000 0 0 None
       (Some (beforeFunc logging_parameters))
       (Some (afterFunc (-1) logging_parameters))
       [None])).
  { split; reflexivity. }
  assert (Hex : Exists (λ m, ¬ no_nil_item m)
                  [Some ({[ "index" := None ]}
                     : gmap string (option elastic.BulkResponseItem.t))]).
  { apply (bool_decide_unpack _). vm_compute. reflexivity. }
  split; [exact Hb |]. split; [exact Hex |].
  apply (commit_nil_item_skips_after_hook (-1) logging_parameters _ 3
           (elastic.BulkResponse.mk 5 true
              (Some [Some {[ "index" := None ]}]))
           None [] Hb Hex).
Defined.


Lemma Add_req_delete_eq_iff_witness :
  Add_req 1 0 2
    (GenericBulkableAddRequest.mk 1 "idx" "doc2" "external" 42 None)
  = Add_req 1 0 2
      (GenericBulkableAddRequest.mk 1 "idx" "doc2" "external" 42
         (Some "{a:1}")).
Proof.
  apply (Add_req_delete_eq_iff 1 0 2
           (GenericBulkableAddRequest.mk 1 "idx" "doc2" "external" 42 None)
           (GenericBulkableAddRequest.mk 1 "idx" "doc2" "external" 42
              (Some "{a:1}"))
           eq_refl eq_refl).
  repeat split.
Defined.

Lemma Add_req_create_eq_iff_witness :
  NoDup [1; 0; 2]
  ∧ Add_req 1 0 2
      (GenericBulkableAddRequest.mk 2 "idx" "doc3" "external" 42
         (Some "{a:1}"))
    ≠ Add_req 1 0 2
        (GenericBulkableAddRequest.mk 2 "idx" "doc3" "external" 42 None).
Proof.
  assert (Hnd : NoDup [1; 0; 2]).
  { apply (bool_decide_unpack _). vm_compute. reflexivity. }
  split; [exact Hnd |].
  intros Heq.
  apply (Add_req_create_eq_iff 1 0 2 Hnd
           (GenericBulkableAddRequest.mk 2 "idx" "doc3" "external" 42
              (Some "{a:1}"))
           (GenericBulkableAddRequest.mk 2 "idx" "doc3" "external" 42 None)
           eq_refl eq_refl) in Heq.
  destruct Heq as (_ & _ & Hdoc). discriminate Hdoc.
Defined.
